(** * kvcache: the process bootstrap of [src/main.cpp]

    The repository consists of one translation unit, [main.cpp].  Its [main]
    builds a [seastar::app_template], hands it [argc]/[argv] together with a
    lambda, and falls off the end of the function.  The lambda inserts one
    banner into [std::cout] and returns [seastar::make_ready_future<>()].

    The development embeds that program by explicit state passing over a
    [process] record: the characters inserted into [std::cout], the global
    [seastar::smp::count], and the life cycle of the reactor.  The Seastar
    library is not part of the repository; [main] is therefore written against
    an [app_template] interface, and [seastar.app] gives the contract of
    [app_template::run] that the theorems about a started runtime rely on. *)

From Stdlib Require Import ZArith NArith List String Ascii Lia.
From Stdlib Require Import DecimalString DecimalPos DecimalN.
Import ListNotations.

Local Open Scope string_scope.

(** ** Characters and lines *)

(** The C++ escape ['\n']. *)
Definition newline : ascii := ascii_of_nat 10.

(** Number of ['\n'] characters of a string. *)
Fixpoint newlines (s : string) : nat :=
  match s with
  | EmptyString => 0
  | String c rest => (if Ascii.eqb c newline then 1 else 0) + newlines rest
  end.

(** A string is one line when its only ['\n'] is its last character. *)
Fixpoint one_line (s : string) : bool :=
  match s with
  | EmptyString => false
  | String c rest =>
      if Ascii.eqb c newline
      then match rest with EmptyString => true | String _ _ => false end
      else one_line rest
  end.

(** ** The part of the C++ standard library that [main.cpp] uses *)

Module std.

(** [std::ostream::operator<<(unsigned)] with the default flags: the decimal
    digits of the value, no sign, no padding, a single 0 for zero. *)
Definition show_unsigned (n : N) : string :=
  NilZero.string_of_uint (N.to_uint n).

End std.

(** ** The part of Seastar that [main.cpp] uses *)

Module seastar.

(** [seastar::future<T>] seen from the code that receives it: already
    resolved with a value, already resolved with an exception, or not yet
    resolved (the continuation would be suspended). *)
Inductive future (T : Type) : Type :=
| ready (v : T)
| exceptional (what : string)
| pending.
Arguments ready {T} v.
Arguments exceptional {T} what.
Arguments pending {T}.

(** [seastar::make_ready_future<>()]. *)
Definition make_ready_future : future unit := ready tt.

Definition is_ready {T} (f : future T) : bool :=
  match f with ready _ => true | _ => false end.

(** What the reactor did, oldest first. *)
Inductive phase : Type :=
| reactor_started (cores : N)
| reactor_exited (status : Z).

(** The state a run of the program can touch.  [smp_count] is the static
    [seastar::smp::count] (an [unsigned]); [cout] holds the characters
    inserted into [std::cout] so far. *)
Record process : Type := mkProcess {
  smp_count : N;
  cout : string;
  reactor_log : list phase
}.

(** A process that has just entered [main]. *)
Definition fresh : process :=
  {| smp_count := 0; cout := EmptyString; reactor_log := [] |}.

(** How a call that may run the reactor ends: it returns a status, the
    process is terminated ([std::terminate]), or the reactor never stops. *)
Inductive outcome : Type :=
| exited (status : Z) (p : process)
| terminated (p : process)
| blocked.

(** The value the operating system sees as exit code of the process. *)
Definition exit_code (o : outcome) : option Z :=
  match o with
  | exited status _ => Some status
  | terminated _ | blocked => None
  end.

(** The application callback type, [std::function<future<> ()>]. *)
Definition task : Type := process -> future unit * process.

(** The interface of [seastar::app_template] that [main] calls:
    [int run(int ac, char** av, std::function<future<> ()>&& func)]. *)
Record app_template : Type := mkApp {
  run : list string -> task -> process -> outcome
}.

(** What the environment decides when the runtime is brought up for a given
    command line: the options are rejected or the cores and their message
    queues cannot be set up ([refused], with the non-zero status that
    [app_template::run] returns), or the reactor comes up on [cores]
    threads. *)
Inductive startup : Type :=
| refused (status : positive)
| online (cores : N).

Definition log (ph : phase) (p : process) : process :=
  {| smp_count := smp_count p; cout := cout p;
     reactor_log := reactor_log p ++ [ph] |}.

Definition configure (cores : N) (p : process) : process :=
  {| smp_count := cores; cout := cout p; reactor_log := reactor_log p |}.

(** Contract of [app_template::run] for a callback returning [future<>].
    A refused startup returns its status and never invokes [func].
    Otherwise [smp::count] is set, the reactor starts, [func] is invoked
    once; when its future is resolved with a value the reactor exits with
    status 0 and [run] returns it, an exceptional future terminates the
    process, and a future that nothing resolves keeps the reactor running. *)
Definition app_run (probe : list string -> startup)
    (argv : list string) (func : task) (p : process) : outcome :=
  match probe argv with
  | refused status => exited (Z.pos status) p
  | online cores =>
      let p1 := log (reactor_started cores) (configure cores p) in
      match func p1 with
      | (ready _, p2) => exited 0 (log (reactor_exited 0) p2)
      | (exceptional _, p2) => terminated p2
      | (pending, _) => blocked
      end
  end.

Definition app (probe : list string -> startup) : app_template :=
  {| run := app_run probe |}.

End seastar.

Import seastar.

(** ** [main.cpp] *)

(** [std::cout << s] for a string literal. *)
Definition cout_string (s : string) (p : process) : process :=
  {| smp_count := smp_count p; cout := cout p ++ s;
     reactor_log := reactor_log p |}.

(** [std::cout << n] for an [unsigned]. *)
Definition cout_unsigned (n : N) (p : process) : process :=
  cout_string (std.show_unsigned n) p.

(** The lambda passed to [app.run] (lines 8-11):
    [std::cout << "kvcache: online with " << seastar::smp::count
               << " threads.\n";
     return seastar::make_ready_future<>();] *)
Definition main_lambda : task := fun p =>
  let p1 := cout_string "kvcache: online with " p in
  let p2 := cout_unsigned (smp_count p1) p1 in
  let p3 := cout_string (" threads." ++ String newline EmptyString) p2 in
  (make_ready_future, p3).

(** [int main(int argc, char** argv)] (lines 6-12).  The value of
    [app.run(...)] is an expression statement: it is dropped, and control
    reaches the closing brace of [main], which in C++ returns 0. *)
Definition main (app : app_template) (argv : list string) (p : process)
  : outcome :=
  match run app argv main_lambda p with
  | exited _ p' => exited 0 p'
  | terminated p' => terminated p'
  | blocked => blocked
  end.

(** The banner for a runtime of [n] threads. *)
Definition banner (n : N) : string :=
  "kvcache: online with " ++ std.show_unsigned n ++ " threads."
    ++ String newline EmptyString.

(** The exit-code rule as the specification words it: 0 when the runtime came
    up and shut down, non-zero when startup was refused. *)
Definition exit_code_tracks_startup : Prop :=
  forall (probe : list string -> startup) (argv : list string) (p : process),
    match probe argv with
    | online _ => exit_code (main (app probe) argv p) = Some 0%Z
    | refused _ =>
        exists status, exit_code (main (app probe) argv p) = Some status
                       /\ status <> 0%Z
    end.

(** An environment in which the runtime cannot allocate its cores. *)
Definition no_cores : list string -> startup := fun _ => refused 1.

(** ** Concrete runs *)

Example banner_4 :
  banner 4 = "kvcache: online with 4 threads." ++ String newline EmptyString.
Proof. reflexivity. Qed.

Example main_on_4_cores :
  main (app (fun _ => online 4)) ["kvcache"] fresh =
  exited 0 {| smp_count := 4;
              cout := "kvcache: online with 4 threads." ++ String newline EmptyString;
              reactor_log := [reactor_started 4; reactor_exited 0] |}.
Proof. reflexivity. Qed.

Example main_without_cores :
  main (app no_cores) ["kvcache"] fresh = exited 0 fresh.
Proof. reflexivity. Qed.

Example run_without_cores :
  run (app no_cores) ["kvcache"] main_lambda fresh = exited 1 fresh.
Proof. reflexivity. Qed.

(** ** Lines and decimal digits *)

Lemma newlines_app (a b : string) :
  newlines (a ++ b) = newlines a + newlines b.
Proof.
  induction a as [|c a IH]; simpl; [reflexivity|].
  rewrite IH. lia.
Qed.

Lemma one_line_app (a b : string) :
  newlines a = 0 -> one_line (a ++ b) = one_line b.
Proof.
  induction a as [|c a IH]; simpl; [reflexivity|].
  destruct (Ascii.eqb c newline); [discriminate|].
  exact IH.
Qed.

Lemma newlines_digits (d : Decimal.uint) :
  newlines (NilEmpty.string_of_uint d) = 0.
Proof. induction d; simpl; auto. Qed.

Lemma newlines_show_unsigned (n : N) : newlines (std.show_unsigned n) = 0.
Proof.
  unfold std.show_unsigned, NilZero.string_of_uint.
  destruct (N.to_uint n) eqn:E; try reflexivity;
    rewrite <- E; apply newlines_digits.
Qed.

Lemma banner_one_line (n : N) : one_line (banner n) = true.
Proof.
  unfold banner.
  rewrite (one_line_app "kvcache: online with ") by reflexivity.
  rewrite one_line_app by apply newlines_show_unsigned.
  reflexivity.
Qed.

Lemma banner_newlines (n : N) : newlines (banner n) = 1.
Proof.
  unfold banner. rewrite !newlines_app, newlines_show_unsigned. reflexivity.
Qed.

Lemma append_assoc (a b c : string) : (a ++ b) ++ c = a ++ (b ++ c).
Proof. induction a as [|x a IH]; simpl; [reflexivity|]. now rewrite IH. Qed.

(** The three insertions of the lambda amount to appending the banner. *)
Lemma main_lambda_banner (p : process) :
  main_lambda p = (ready tt, cout_string (banner (smp_count p)) p).
Proof.
  unfold main_lambda, cout_unsigned, cout_string, banner, make_ready_future.
  cbn [smp_count cout reactor_log].
  rewrite !append_assoc. reflexivity.
Qed.

(** [main] never looks at the status [run] returns. *)
Lemma main_drops_status (a : app_template) (argv : list string) (p : process) :
  exit_code (main a argv p) =
  option_map (fun _ => 0%Z) (exit_code (run a argv main_lambda p)).
Proof. unfold main. destruct (run a argv main_lambda p); reflexivity. Qed.

Lemma app_run_main_lambda (probe : list string -> startup)
    (argv : list string) (p : process) :
  run (app probe) argv main_lambda p =
  match probe argv with
  | refused status => exited (Z.pos status) p
  | online cores =>
      exited 0 {| smp_count := cores;
                  cout := cout p ++ banner cores;
                  reactor_log :=
                    reactor_log p ++ [reactor_started cores; reactor_exited 0] |}
  end.
Proof.
  cbn [run app]. unfold app_run.
  destruct (probe argv) as [status|cores]; [reflexivity|].
  rewrite main_lambda_banner.
  unfold log, configure, cout_string. cbn [smp_count cout reactor_log].
  rewrite <- app_assoc. reflexivity.
Qed.

(** ** The bootstrap *)

(** C1. When the runtime starts on [n] threads, [main] starts the reactor,
    appends to stdout exactly the one line
    ["kvcache: online with n threads."] where [n] is [seastar::smp::count],
    and returns once the reactor has exited: the final process differs from
    the initial one by that line, the core count and the two reactor phases,
    and by nothing else. *)
Theorem main_online_writes_banner
    (probe : list string -> startup) (argv : list string) (p : process)
    (n : N) :
  probe argv = online n ->
  main (app probe) argv p =
    exited 0 {| smp_count := n;
                cout := cout p ++ banner n;
                reactor_log :=
                  reactor_log p ++ [reactor_started n; reactor_exited 0] |}
  /\ banner n = "kvcache: online with " ++ std.show_unsigned n
                  ++ " threads." ++ String newline EmptyString
  /\ one_line (banner n) = true
  /\ newlines (banner n) = 1.
Proof.
  intros Hup. repeat split.
  - unfold main. rewrite app_run_main_lambda, Hup. reflexivity.
  - apply banner_one_line.
  - apply banner_newlines.
Qed.

Lemma main_online_writes_banner_witness :
  main (app (fun _ => online 8)) ["kvcache"; "--smp"; "8"] fresh =
    exited 0 {| smp_count := 8;
                cout := "kvcache: online with 8 threads."
                          ++ String newline EmptyString;
                reactor_log := [reactor_started 8; reactor_exited 0] |}.
Proof.
  exact (proj1 (main_online_writes_banner (fun _ => online 8)
                  ["kvcache"; "--smp"; "8"] fresh 8 eq_refl)).
Defined.

(** C2, as amended.  Whatever the environment decides at startup, [main]
    returns and the exit code of the process is 0: after the reactor came up
    and exited, and also after [app_template::run] refused to start, because
    [main] discards the status that [run] returns. *)
Theorem main_exit_code_zero
    (probe : list string -> startup) (argv : list string) (p : process) :
  exit_code (main (app probe) argv p) = Some 0%Z.
Proof.
  rewrite main_drops_status, app_run_main_lambda.
  destruct (probe argv); reflexivity.
Qed.

(** C2, as stated, fails: with a runtime that cannot allocate its cores
    [run] returns 1 and the process still exits with code 0. *)
Lemma exit_code_ignores_failed_startup : ~ exit_code_tracks_startup.
Proof.
  intros H.
  specialize (H no_cores ["kvcache"] fresh).
  cbn in H. destruct H as [status [Hcode Hnz]].
  apply Hnz. injection Hcode as <-. reflexivity.
Qed.

(** C10. For every process state the lambda passed to [app.run] returns a
    future that is already resolved ([make_ready_future]), having appended the
    one-line banner to stdout and changed nothing else: [smp::count] and the
    reactor's history are as before. *)
Theorem main_lambda_ready (p : process) :
  main_lambda p =
    (make_ready_future,
     {| smp_count := smp_count p;
        cout := cout p ++ banner (smp_count p);
        reactor_log := reactor_log p |})
  /\ is_ready (fst (main_lambda p)) = true
  /\ one_line (banner (smp_count p)) = true.
Proof.
  rewrite main_lambda_banner. repeat split.
  apply banner_one_line.
Qed.


(** ** Further properties of the bootstrap *)

Lemma append_length (a b : string) :
  String.length (a ++ b) = String.length a + String.length b.
Proof. induction a as [|x a IH]; simpl; [reflexivity|]. now rewrite IH. Qed.

Lemma append_cancel_l (a b c : string) : a ++ b = a ++ c -> b = c.
Proof.
  induction a as [|x a IH]; simpl; intros H; [exact H|].
  injection H as H. exact (IH H).
Qed.

Lemma append_cancel_r (a b c : string) : a ++ c = b ++ c -> a = b.
Proof.
  revert b. induction a as [|x a IH]; intros [|y b] H; simpl in H.
  - reflexivity.
  - apply (f_equal String.length) in H. simpl in H.
    rewrite append_length in H. lia.
  - apply (f_equal String.length) in H. simpl in H.
    rewrite append_length in H. lia.
  - injection H as -> H. f_equal. exact (IH b H).
Qed.

Lemma to_uint_nonnil (n : N) : N.to_uint n <> Decimal.Nil.
Proof.
  destruct n as [|q]; simpl; [discriminate|].
  apply DecimalPos.Unsigned.to_uint_nonnil.
Qed.

Lemma show_unsigned_inj (n m : N) :
  std.show_unsigned n = std.show_unsigned m -> n = m.
Proof.
  unfold std.show_unsigned. intros H.
  apply (f_equal NilZero.uint_of_string) in H.
  rewrite !NilZero.usu in H by apply to_uint_nonnil.
  injection H as H.
  rewrite <- (DecimalN.Unsigned.of_to n), <- (DecimalN.Unsigned.of_to m).
  now rewrite H.
Qed.

Lemma banner_inj (n m : N) : banner n = banner m -> n = m.
Proof.
  unfold banner. intros H.
  apply append_cancel_l in H.
  rewrite <- !append_assoc in H.
  apply append_cancel_r in H.
  apply append_cancel_r in H.
  now apply show_unsigned_inj.
Qed.



(** X2. The line the lambda prints identifies the thread count: started from
    the same stdout contents, two invocations that leave the same stdout
    contents read the same [seastar::smp::count]. *)
Theorem main_lambda_output_identifies_count (p q : process) :
  cout p = cout q ->
  cout (snd (main_lambda p)) = cout (snd (main_lambda q)) ->
  smp_count p = smp_count q.
Proof.
  rewrite !main_lambda_banner. cbn [snd cout_string cout].
  intros -> H. apply append_cancel_l in H.
  now apply banner_inj.
Qed.

Lemma main_lambda_output_identifies_count_witness :
  smp_count (configure 4 fresh) =
  smp_count (log (reactor_started 4) (configure 4 fresh)).
Proof.
  exact (main_lambda_output_identifies_count
           (configure 4 fresh) (log (reactor_started 4) (configure 4 fresh))
           eq_refl eq_refl).
Defined.

(** X3. Whatever [app_template::run] does, a [main] that returns does so with
    status 0, in exactly the process state [run] left behind: [main] adds no
    effect of its own and passes no status on. *)
Theorem main_returns_only_zero
    (a : app_template) (argv : list string) (p q : process) (status : Z) :
  main a argv p = exited status q ->
  status = 0%Z
  /\ exists status', run a argv main_lambda p = exited status' q.
Proof.
  unfold main. destruct (run a argv main_lambda p) as [s r|r|];
    intros H; try discriminate.
  injection H as <- <-. split; [reflexivity|]. now exists s.
Qed.

Lemma main_returns_only_zero_witness :
  0%Z = 0%Z
  /\ exists status',
       run (app no_cores) ["kvcache"] main_lambda fresh = exited status' fresh.
Proof.
  exact (main_returns_only_zero (app no_cores) ["kvcache"] fresh fresh 0
           eq_refl).
Defined.
